(** * Verification of the demo web service [app/app.py]

    The program is a Flask application with two views, [index] and [health],
    and one helper, [check_db], which opens a PostgreSQL connection through
    psycopg2, runs [SELECT 1] and closes the connection.

    The embedding follows the source line by line.  Everything the program
    does not define itself is kept outside the embedded code:
    - the process environment [os.environ] is a finite map from names to
      strings;
    - the behaviour of the builtin [int] on a [str] is a parameter of
      [load_module];
    - the database server seen through psycopg2 is a record of answers
      ([psycopg2_world]): for each connection attempt it says whether each
      call returns, raises, or never comes back;
    - every call that leaves the process is appended to a trace, so that
      statements about "which calls were made" are statements about lists. *)

From Stdlib Require Import ZArith Ascii String List Bool Lia.
From stdpp Require Import base option gmap strings list.

Local Open Scope string_scope.

(** ** Python values and exceptions *)

(** The two kinds of value that [os.environ.get] can hand to [int] in this
    program: a [str] read from the environment, or the [int] default. *)
Inductive pyval : Type :=
  | PyStr (s : string)
  | PyInt (z : Z).

(** Exception classes that matter here.  The first four are psycopg2's
    (all derive from [psycopg2.Error], itself an [Exception]); connection
    refusal, connect timeout and authentication failure are reported as
    [OperationalError].  [KeyboardInterrupt] and [SystemExit] derive from
    [BaseException] only. *)
Inductive exc_class : Type :=
  | OperationalError
  | InterfaceError
  | DatabaseError
  | ProgrammingError
  | ValueError
  | RuntimeError
  | KeyboardInterrupt
  | SystemExit.

Record exc : Type := MkExc { exc_cls : exc_class; exc_msg : string }.

(** [isinstance(e, Exception)] *)
Definition is_Exception (e : exc) : bool :=
  match exc_cls e with
  | KeyboardInterrupt | SystemExit => false
  | _ => true
  end.

(** [str(e)] as used by the f-string in [check_db]. *)
Definition str_exc (e : exc) : string := exc_msg e.

(** ** Results of running Python code

    A piece of code either returns a value, raises an exception, or never
    returns (it is blocked in a call that does not come back). *)
Inductive result (A : Type) : Type :=
  | Val (a : A)
  | Exc (e : exc)
  | Div.
Arguments Val {A} a.
Arguments Exc {A} e.
Arguments Div {A}.

(** ** Module-level configuration (lines 7-11) *)

(** [os.environ.get(key, default)] *)
Definition environ_get (environ : gmap string string) (key : string)
    (default : pyval) : pyval :=
  match environ !! key with
  | Some s => PyStr s
  | None => default
  end.

(** [os.environ.get(key, default)] with a [str] default: the result is a
    [str] whether or not the variable is set. *)
Definition environ_get_str (environ : gmap string string) (key : string)
    (default : string) : string :=
  match environ !! key with
  | Some s => s
  | None => default
  end.

(** The module globals defined at import. *)
Record module_globals : Type := MkGlobals {
  DB_HOST : string;
  DB_PORT : Z;
  DB_NAME : string;
  DB_USER : string;
  DB_PASS : string
}.

Section ModuleLoad.

(** The builtin [int] on a [str] argument: [Some z] when it returns [z],
    [None] when it raises [ValueError]. *)
Variable int_of_str : string -> option Z.

(** [int(v)]: the identity on an [int], parsing on a [str]. *)
Definition py_int (v : pyval) : result Z :=
  match v with
  | PyInt z => Val z
  | PyStr s =>
      match int_of_str s with
      | Some z => Val z
      | None =>
          Exc (MkExc ValueError
                 ("invalid literal for int() with base 10: '" ++ s ++ "'"))
      end
  end.

(** Executing lines 7-11.  Only line 8 can raise; nothing catches it. *)
Definition load_module (environ : gmap string string)
    : result module_globals :=
  let host := environ_get_str environ "DB_HOST" "host.docker.internal" in
  match py_int (environ_get environ "DB_PORT" (PyInt 5432)) with
  | Val port =>
      let name := environ_get_str environ "DB_NAME" "dev_db" in
      let user := environ_get_str environ "DB_USER" "dev" in
      let pass := environ_get_str environ "DB_PASS" "devpass" in
      Val (MkGlobals host port name user pass)
  | Exc e => Exc e
  | Div => Div
  end.

End ModuleLoad.

(** ** The outside world: psycopg2 and the log *)

(** Keyword arguments of [psycopg2.connect] as passed on line 16. *)
Record connect_kwargs : Type := MkKwargs {
  host : string;
  port : Z;
  dbname : string;
  user : string;
  password : string;
  connect_timeout : Z
}.

(** Connections are numbered in the order in which they are attempted; a
    cursor is identified by the connection it belongs to (the program
    creates at most one per connection). *)
Definition connection : Type := nat.
Definition cursor : Type := nat.

(** What a call into psycopg2 does. *)
Inductive outcome : Type :=
  | Returns
  | Raises (e : exc)
  | Hangs.

(** The database as seen through psycopg2: the answer to each of the five
    calls of a probe, for each connection attempt. *)
Record psycopg2_world : Type := MkWorld {
  connect_outcome : nat -> connect_kwargs -> outcome;
  cursor_outcome : nat -> outcome;
  execute_outcome : nat -> string -> outcome;
  cursor_close_outcome : nat -> outcome;
  conn_close_outcome : nat -> outcome
}.

(** Calls that leave the process, in the order they are made. *)
Inductive event : Type :=
  | EvConnect (c : connection) (kw : connect_kwargs)
  | EvCursor (c : connection)
  | EvExecute (cur : cursor) (sql : string)
  | EvCursorClose (cur : cursor)
  | EvConnClose (c : connection)
  | EvLogDebug (msg : string).

(** The state a request handler runs in: the module globals, the number of
    connection attempts made so far, and the calls made so far. *)
Record state : Type := MkState {
  globals : module_globals;
  next_conn : nat;
  trace : list event
}.

Definition emit (ev : event) (st : state) : state :=
  MkState (globals st) (next_conn st) (trace st ++ [ev]).

(** ** A state-and-exception monad for the handlers *)

Definition M (A : Type) : Type := state -> result A * state.

Definition ret {A} (a : A) : M A := fun st => (Val a, st).

Definition bind {A B} (m : M A) (k : A -> M B) : M B :=
  fun st =>
    match m st with
    | (Val a, st') => k a st'
    | (Exc e, st') => (Exc e, st')
    | (Div, st') => (Div, st')
    end.

Declare Scope py_scope.
Delimit Scope py_scope with py.
Notation "'do' x <- m ; k" := (bind m (fun x => k))
  (at level 10, x name, m at level 100, k at level 200) : py_scope.

(** [try: body  except Exception as e: handler(e)].  An exception that is
    not an instance of [Exception] passes through. *)
Definition try_except_Exception {A} (body : M A) (handler : exc -> M A)
    : M A :=
  fun st =>
    match body st with
    | (Exc e, st') =>
        if is_Exception e then handler e st' else (Exc e, st')
    | r => r
    end.

(** Reading the module globals at call time. *)
Definition read_globals : M module_globals :=
  fun st => (Val (globals st), st).

(** Performing a call whose answer the world decides. *)
Definition call {A} (ev : event) (o : outcome) (a : A) : M A :=
  fun st =>
    match o with
    | Returns => (Val a, emit ev st)
    | Raises e => (Exc e, emit ev st)
    | Hangs => (Div, emit ev st)
    end.

Section Program.

Variable w : psycopg2_world.

(** [psycopg2.connect] called with keyword arguments [kw] *)
Definition psycopg2_connect (kw : connect_kwargs) : M connection :=
  fun st =>
    let c := next_conn st in
    call (EvConnect c kw) (connect_outcome w c kw) c
      (MkState (globals st) (S c) (trace st)).

(** [conn.cursor()] *)
Definition conn_cursor (c : connection) : M cursor :=
  call (EvCursor c) (cursor_outcome w c) c.

(** [cur.execute(sql)] *)
Definition cur_execute (cur : cursor) (sql : string) : M unit :=
  call (EvExecute cur sql) (execute_outcome w cur sql) tt.

(** [cur.close()] *)
Definition cur_close (cur : cursor) : M unit :=
  call (EvCursorClose cur) (cursor_close_outcome w cur) tt.

(** [conn.close()] *)
Definition conn_close (c : connection) : M unit :=
  call (EvConnClose c) (conn_close_outcome w c) tt.

(** [app.logger.debug(msg)] *)
Definition logger_debug (msg : string) : M unit :=
  fun st => (Val tt, emit (EvLogDebug msg) st).

(** *** [check_db] (lines 14-24) *)
Definition check_db : M bool :=
  try_except_Exception
    (do g <- read_globals;
     do conn <- psycopg2_connect
                  (MkKwargs (DB_HOST g) (DB_PORT g) (DB_NAME g) (DB_USER g)
                     (DB_PASS g) 2);
     do cur <- conn_cursor conn;
     do _ <- cur_execute cur "SELECT 1";
     do _ <- cur_close cur;
     do _ <- conn_close conn;
     ret true)%py
    (fun e =>
       (do _ <- logger_debug ("DB check failed: " ++ str_exc e);
        ret false)%py).

End Program.

(** ** The Flask layer *)

Inductive http_method : Type :=
  | GET | HEAD | OPTIONS | POST | PUT | DELETE | PATCH.

(** An incoming request.  The views below take no argument and never look
    at [flask.request]; the fields other than [method] and [path] are here
    so that this can be stated. *)
Record request : Type := MkRequest {
  method : http_method;
  path : string;
  query_string : string;
  headers : list (string * string);
  data : string
}.

Inductive payload : Type :=
  | Json (d : gmap string string)
  | NoBody.

Record response : Type := MkResponse {
  status : Z;
  mimetype : string;
  body : payload
}.

(** [jsonify(d)]: a response with status 200 carrying the dict as a JSON
    object. *)
Definition jsonify (d : gmap string string) : response :=
  MkResponse 200 "application/json" (Json d).

(** What the client gets back for one request. *)
Inductive reply : Type :=
  | ViewReply (r : response)
      (** the response built by a view *)
  | FrameworkReply
      (** the framework's own answer (no rule for the path, method not
          allowed, automatic OPTIONS); no view runs *)
  | ServerError (e : exc)
      (** the framework's status-500 answer to an [Exception] raised by a
          view *).

Section App.

Variable w : psycopg2_world.

(** *** [index] (lines 27-29) *)
Definition index : M response :=
  (do ok <- check_db w;
   ret (jsonify
          (<["db" := if ok then "reachable" else "unreachable"]>
             (<["message" := "DevOps Platform Demo App"]> ∅))))%py.

(** *** [health] (lines 32-34) *)
Definition health : M response :=
  ret (jsonify (<["status" := "ok"]> ∅)).

(** The rules registered by the two [@app.route] decorators. *)
Definition url_map : list (string * M response) :=
  [("/", index); ("/health", health)].

Fixpoint match_rule (rules : list (string * M response)) (p : string)
    : option (M response) :=
  match rules with
  | [] => None
  | (rule, view) :: rules' =>
      if String.eqb rule p then Some view else match_rule rules' p
  end.

(** Flask's dispatch for a rule registered without [methods=]: GET and
    HEAD run the view (the body of a HEAD response is dropped), anything
    else is answered by the framework. *)
Definition full_dispatch_request (r : request) : M reply :=
  match match_rule url_map (path r) with
  | None => ret FrameworkReply
  | Some view =>
      match method r with
      | GET => (do resp <- view; ret (ViewReply resp))%py
      | HEAD =>
          (do resp <- view;
           ret (ViewReply
                  (MkResponse (status resp) (mimetype resp) NoBody)))%py
      | _ => ret FrameworkReply
      end
  end.

(** Flask's [wsgi_app]: an [Exception] escaping a view becomes a
    status-500 answer; other exceptions propagate. *)
Definition wsgi_app (r : request) : M reply :=
  try_except_Exception (full_dispatch_request r)
    (fun e => ret (ServerError e)).

(** Requests are handled one after the other. *)
Fixpoint serve (rs : list request) : M (list reply) :=
  match rs with
  | [] => ret []
  | r :: rs' =>
      (do x <- wsgi_app r;
       do xs <- serve rs';
       ret (x :: xs))%py
  end.

End App.

(** The whole program: import the module, then serve.  When the import
    raises, no request is handled. *)
Definition run_app (int_of_str : string -> option Z) (w : psycopg2_world)
    (environ : gmap string string) (rs : list request)
    : result (list reply) * list event :=
  match load_module int_of_str environ with
  | Val g =>
      let '(r, st) := serve w rs (MkState g 0 []) in (r, trace st)
  | Exc e => (Exc e, [])
  | Div => (Div, [])
  end.

(** ** Describing a probe from the outside

    The definitions below do not come from the source: they describe, in
    terms of the world alone, what one connection attempt looks like. *)

(** The keyword arguments a probe is expected to use under globals [g]. *)
Definition probe_kwargs (g : module_globals) : connect_kwargs :=
  MkKwargs (DB_HOST g) (DB_PORT g) (DB_NAME g) (DB_USER g) (DB_PASS g) 2.

(** The world's answers to the five steps of attempt [n]: connect, open a
    cursor, run the query, close the cursor, close the connection. *)
Definition probe_steps (w : psycopg2_world) (g : module_globals) (n : nat)
    : list outcome :=
  [ connect_outcome w n (probe_kwargs g);
    cursor_outcome w n;
    execute_outcome w n "SELECT 1";
    cursor_close_outcome w n;
    conn_close_outcome w n ].

(** The five calls of a complete probe on connection [n]. *)
Definition probe_events (g : module_globals) (n : nat) : list event :=
  [ EvConnect n (probe_kwargs g);
    EvCursor n;
    EvExecute n "SELECT 1";
    EvCursorClose n;
    EvConnClose n ].

(** The first step that does not return, if any. *)
Fixpoint first_stop (os : list outcome) : outcome :=
  match os with
  | [] => Returns
  | Returns :: os' => first_stop os'
  | o :: _ => o
  end.

(** How many steps return before the first one that does not. *)
Fixpoint returned (os : list outcome) : nat :=
  match os with
  | Returns :: os' => S (returned os')
  | _ => 0%nat
  end.

Definition all_return (os : list outcome) : Prop :=
  Forall (fun o => o = Returns) os.

(** A step raises an error: it is reached, and it raises [e]. *)
Definition step_raises (os : list outcome) (e : exc) : Prop :=
  first_stop os = Raises e.

(** The world answers attempt [n] the way a database can: every step that
    is reached comes back, and what it raises, if anything, is an error
    (an instance of [Exception]). *)
Definition answers (w : psycopg2_world) (g : module_globals) (n : nat)
    : Prop :=
  match first_stop (probe_steps w g n) with
  | Returns => True
  | Raises e => is_Exception e = true
  | Hangs => False
  end.

(** Whether attempt [n] goes through. *)
Definition reachable_at (w : psycopg2_world) (g : module_globals) (n : nat)
    : bool :=
  match first_stop (probe_steps w g n) with
  | Returns => true
  | _ => false
  end.

(** The calls made by attempt [n]: those up to and including the first step
    that does not return. *)
Definition calls_made (w : psycopg2_world) (g : module_globals) (n : nat)
    : list event :=
  firstn (S (returned (probe_steps w g n))) (probe_events g n).

(** The response [index] builds when the probe says [ok]. *)
Definition root_response (ok : bool) : response :=
  jsonify
    (<["db" := if ok then "reachable" else "unreachable"]>
       (<["message" := "DevOps Platform Demo App"]> ∅)).

(** The value of a field of a JSON response, if it has that field. *)
Definition json_field (r : response) (k : string) : option string :=
  match body r with
  | Json d => d !! k
  | NoBody => None
  end.

(** Which kind of call an event is. *)
Definition is_connect (ev : event) : bool :=
  match ev with EvConnect _ _ => true | _ => false end.

Definition is_execute (ev : event) : bool :=
  match ev with EvExecute _ _ => true | _ => false end.

(** The timeout handed to a call, for the calls that take one. *)
Definition timeout_of (ev : event) : option Z :=
  match ev with
  | EvConnect _ kw => Some (connect_timeout kw)
  | _ => None
  end.

(** What [DB_PORT] becomes, when line 8 does not raise. *)
Definition port_value (int_of_str : string -> option Z)
    (environ : gmap string string) : option Z :=
  match environ !! "DB_PORT" with
  | Some s => int_of_str s
  | None => Some 5432%Z
  end.

(** ** Concrete worlds and states, for examples *)

Definition refused : exc :=
  MkExc OperationalError "connection refused".

Definition query_failed : exc :=
  MkExc DatabaseError "server closed the connection unexpectedly".

(** A database that answers every call. *)
Definition world_up : psycopg2_world :=
  MkWorld (fun _ _ => Returns) (fun _ => Returns) (fun _ _ => Returns)
    (fun _ => Returns) (fun _ => Returns).

(** Nothing listens on the port. *)
Definition world_down : psycopg2_world :=
  MkWorld (fun _ _ => Raises refused) (fun _ => Returns)
    (fun _ _ => Returns) (fun _ => Returns) (fun _ => Returns).

(** The server accepts the connection and fails the query. *)
Definition world_query_error : psycopg2_world :=
  MkWorld (fun _ _ => Returns) (fun _ => Returns)
    (fun _ _ => Raises query_failed) (fun _ => Returns) (fun _ => Returns).

(** The server accepts the connection and never answers the query. *)
Definition world_query_hangs : psycopg2_world :=
  MkWorld (fun _ _ => Returns) (fun _ => Returns) (fun _ _ => Hangs)
    (fun _ => Returns) (fun _ => Returns).

(** The user interrupts the process while it is connecting. *)
Definition world_interrupted : psycopg2_world :=
  MkWorld (fun _ _ => Raises (MkExc KeyboardInterrupt ""))
    (fun _ => Returns) (fun _ _ => Returns) (fun _ => Returns)
    (fun _ => Returns).

(** A database that is up for even-numbered attempts only. *)
Definition world_flapping : psycopg2_world :=
  MkWorld (fun n _ => if Nat.even n then Returns else Raises refused)
    (fun _ => Returns) (fun _ _ => Returns) (fun _ => Returns)
    (fun _ => Returns).

Definition default_globals : module_globals :=
  MkGlobals "host.docker.internal" 5432 "dev_db" "dev" "devpass".

Definition st0 : state := MkState default_globals 0 [].

Definition get (p : string) : request := MkRequest GET p "" [] "".

(** ** A reference reading of integer literals *)

(** A stand-in for the builtin [int] on ASCII strings, used in examples:
    surrounding whitespace is dropped, a sign may precede the digits, and
    single underscores may separate digits.  (The limit that recent
    interpreters put on the number of digits is left out.) *)
Definition is_space (c : ascii) : bool :=
  let n := nat_of_ascii c in
  ((9 <=? n) && (n <=? 13) || (28 <=? n) && (n <=? 32))%nat.

Definition digit_val (c : ascii) : option Z :=
  let n := nat_of_ascii c in
  if ((48 <=? n) && (n <=? 57))%nat then Some (Z.of_nat (n - 48)) else None.

Fixpoint lstrip (s : string) : string :=
  match s with
  | String c s' => if is_space c then lstrip s' else s
  | EmptyString => EmptyString
  end.

Fixpoint all_space (s : string) : bool :=
  match s with
  | String c s' => is_space c && all_space s'
  | EmptyString => true
  end.

(** Reads digits and underscores; [after_digit] says whether the previous
    character was a digit.  Returns the value and what follows. *)
Fixpoint parse_digits (s : string) (acc : Z) (after_digit : bool)
    : option (Z * string) :=
  match s with
  | EmptyString => if after_digit then Some (acc, s) else None
  | String c s' =>
      match digit_val c with
      | Some d => parse_digits s' (10 * acc + d)%Z true
      | None =>
          if Ascii.eqb c "_"
          then (if after_digit then parse_digits s' acc false else None)
          else (if after_digit then Some (acc, s) else None)
      end
  end.

Definition int_of_ascii_str (s : string) : option Z :=
  let s1 := lstrip s in
  let '(sign, s2) :=
    match s1 with
    | String "+" r => (1%Z, r)
    | String "-" r => ((-1)%Z, r)
    | _ => (1%Z, s1)
    end in
  match parse_digits s2 0 false with
  | Some (z, rest) => if all_space rest then Some (sign * z)%Z else None
  | None => None
  end.

(** ** Reading a trace *)

(** The connection a call is made on; a log call is on none. *)
Definition conn_of (ev : event) : option connection :=
  match ev with
  | EvConnect c _ => Some c
  | EvCursor c => Some c
  | EvExecute c _ => Some c
  | EvCursorClose c => Some c
  | EvConnClose c => Some c
  | EvLogDebug _ => None
  end.

Definition on_conn (c : connection) (ev : event) : bool :=
  match conn_of ev with
  | Some c' => Nat.eqb c c'
  | None => false
  end.

Definition is_log (ev : event) : bool :=
  match ev with EvLogDebug _ => true | _ => false end.

(** The requests for which Flask runs [index]: those to [/] with method GET
    or HEAD. *)
Definition probes (r : request) : bool :=
  String.eqb "/" (path r) &&
  match method r with
  | GET | HEAD => true
  | _ => false
  end.

(** The five variables the module reads. *)
Definition config_keys : list string :=
  ["DB_HOST"; "DB_PORT"; "DB_NAME"; "DB_USER"; "DB_PASS"].

(** What the calls recorded in a state look like, connection by
    connection: nothing yet on the connections still to be opened, and on
    each connection an initial part of the five calls of a probe made with
    the parameters of [g]. *)
Definition per_connection (g : module_globals) (st : state) : Prop :=
  globals st = g /\
  (forall c, (next_conn st <= c)%nat ->
     List.filter (on_conn c) (trace st) = []) /\
  (forall c, exists k,
     (k <= 5)%nat /\
     List.filter (on_conn c) (trace st) = firstn k (probe_events g c)).

(** * Properties *)

(** ** What [check_db] does, in one equation *)

Lemma emit_trace ev st : trace (emit ev st) = (trace st ++ [ev])%list.
Proof. reflexivity. Qed.

Lemma check_db_run (w : psycopg2_world) (st : state) :
  check_db w st =
    let g := globals st in
    let n := next_conn st in
    let st' := MkState g (S n) (trace st ++ calls_made w g n) in
    match first_stop (probe_steps w g n) with
    | Returns => (Val true, st')
    | Raises e =>
        if is_Exception e
        then (Val false,
              emit (EvLogDebug ("DB check failed: " ++ str_exc e)) st')
        else (Exc e, st')
    | Hangs => (Div, st')
    end.
Proof.
  destruct st as [g n tr].
  unfold check_db, try_except_Exception, bind, read_globals,
    psycopg2_connect, conn_cursor, cur_execute, cur_close, conn_close,
    logger_debug, ret, call, calls_made, probe_steps, probe_events,
    probe_kwargs, emit.
  cbn [globals next_conn trace first_stop returned firstn].
  destruct (connect_outcome w n _) as [|e1|];
    [destruct (cursor_outcome w n) as [|e2|];
     [destruct (execute_outcome w n _) as [|e3|];
      [destruct (cursor_close_outcome w n) as [|e4|];
       [destruct (conn_close_outcome w n) as [|e5|]|..]|..]|..]|..];
    cbn [globals next_conn trace first_stop returned firstn];
    repeat match goal with
           | |- context [is_Exception ?e] => destruct (is_Exception e)
           end;
    rewrite <- ?app_assoc; reflexivity.
Qed.

Lemma first_stop_Returns (os : list outcome) :
  first_stop os = Returns <-> all_return os.
Proof.
  unfold all_return. induction os as [|o os IH]; cbn.
  - split; [constructor | reflexivity].
  - destruct o.
    + rewrite IH. split; [intros H; constructor; auto | now inversion 1].
    + split; [discriminate | inversion 1; discriminate].
    + split; [discriminate | inversion 1; discriminate].
Qed.

(** The result of [check_db] alone. *)
Lemma check_db_result (w : psycopg2_world) (st : state) :
  fst (check_db w st) =
    match first_stop (probe_steps w (globals st) (next_conn st)) with
    | Returns => Val true
    | Raises e => if is_Exception e then Val false else Exc e
    | Hangs => Div
    end.
Proof.
  rewrite check_db_run. cbv zeta.
  destruct (first_stop _) as [|e|]; try reflexivity.
  destruct (is_Exception e); reflexivity.
Qed.

(** The state [check_db] leaves behind. *)
Lemma check_db_state (w : psycopg2_world) (st : state) :
  let st' := snd (check_db w st) in
  globals st' = globals st /\
  next_conn st' = S (next_conn st) /\
  exists log,
    trace st' =
      (trace st ++ calls_made w (globals st) (next_conn st) ++ log)%list /\
    (log = [] \/ exists msg, log = [EvLogDebug msg]).
Proof.
  rewrite check_db_run. cbv zeta.
  destruct (first_stop _) as [|e|]; cbn [snd globals next_conn trace].
  - repeat split. exists []. rewrite app_nil_r. auto.
  - destruct (is_Exception e); cbn [snd globals next_conn trace emit].
    + repeat split. eexists. rewrite <- app_assoc. split; eauto.
    + repeat split. exists []. rewrite app_nil_r. auto.
  - repeat split. exists []. rewrite app_nil_r. auto.
Qed.

(** An exception that leaves [check_db] was not caught by its handler. *)
Lemma check_db_exc (w : psycopg2_world) (st : state) (e : exc) :
  fst (check_db w st) = Exc e -> is_Exception e = false.
Proof.
  rewrite check_db_result.
  destruct (first_stop _) as [|e'|]; try discriminate.
  destruct (is_Exception e') eqn:He'; [discriminate|].
  now intros [= <-].
Qed.

(** ** The views seen through [wsgi_app] *)

Lemma match_rule_root (w : psycopg2_world) :
  match_rule (url_map w) "/" = Some (index w).
Proof. reflexivity. Qed.

Lemma match_rule_health (w : psycopg2_world) :
  match_rule (url_map w) "/health" = Some health.
Proof. reflexivity. Qed.

Lemma wsgi_app_root (w : psycopg2_world) (st : state) (r : request) :
  method r = GET -> path r = "/" ->
  wsgi_app w r st =
    match check_db w st with
    | (Val ok, st') => (Val (ViewReply (root_response ok)), st')
    | (Exc e, st') =>
        if is_Exception e then (Val (ServerError e), st') else (Exc e, st')
    | (Div, st') => (Div, st')
    end.
Proof.
  intros Hm Hp.
  unfold wsgi_app, try_except_Exception, full_dispatch_request.
  rewrite Hp, match_rule_root, Hm.
  unfold index, bind, ret, root_response.
  destruct (check_db w st) as [[ok|e|] st']; reflexivity.
Qed.

Lemma wsgi_app_health (w : psycopg2_world) (st : state) (r : request) :
  method r = GET -> path r = "/health" ->
  wsgi_app w r st =
    (Val (ViewReply (jsonify (<["status" := "ok"]> ∅))), st).
Proof.
  intros Hm Hp.
  unfold wsgi_app, try_except_Exception, full_dispatch_request.
  rewrite Hp, match_rule_health, Hm. reflexivity.
Qed.

Example check_db_up :
  check_db world_up st0 =
    (Val true,
     MkState default_globals 1
       [ EvConnect 0 (probe_kwargs default_globals); EvCursor 0;
         EvExecute 0 "SELECT 1"; EvCursorClose 0; EvConnClose 0 ]).
Proof. reflexivity. Qed.

Example check_db_down :
  check_db world_down st0 =
    (Val false,
     MkState default_globals 1
       [ EvConnect 0 (probe_kwargs default_globals);
         EvLogDebug "DB check failed: connection refused" ]).
Proof. reflexivity. Qed.

Example check_db_interrupted :
  fst (check_db world_interrupted st0) = Exc (MkExc KeyboardInterrupt "").
Proof. reflexivity. Qed.

(** ** The prober is fail-safe *)

(** C2.  [check_db] returns [True] exactly when all five steps (connect,
    open cursor, execute, close cursor, close connection) succeed; it
    returns [False] exactly when a step raises an error, whichever step and
    whichever error class; and whatever leaves [check_db] as an exception
    is not an error, that is, not an instance of [Exception]. *)
Theorem check_db_fail_safe (w : psycopg2_world) (st : state) :
  let os := probe_steps w (globals st) (next_conn st) in
  (fst (check_db w st) = Val true <-> all_return os) /\
  (fst (check_db w st) = Val false <->
     exists e, step_raises os e /\ is_Exception e = true) /\
  (forall e, fst (check_db w st) = Exc e -> is_Exception e = false).
Proof.
  cbv zeta. rewrite check_db_result, <- first_stop_Returns.
  unfold step_raises.
  destruct (first_stop _) as [|e|].
  - split; [tauto|]. split; [|discriminate].
    split; [discriminate | intros (e & He & _); discriminate].
  - destruct (is_Exception e) eqn:He.
    + split; [split; discriminate|]. split; [|discriminate].
      split; [eauto | reflexivity].
    + split; [split; discriminate|]. split.
      * split; [discriminate|]. intros (e' & He' & Hx).
        injection He' as <-. congruence.
      * intros e' [= <-]. exact He.
  - split; [split; discriminate|]. split; [|discriminate].
    split; [discriminate | intros (e & He & _); discriminate].
Qed.

Lemma answers_check_db (w : psycopg2_world) (st : state) :
  answers w (globals st) (next_conn st) ->
  fst (check_db w st) = Val (reachable_at w (globals st) (next_conn st)).
Proof.
  unfold answers, reachable_at. rewrite check_db_result.
  destruct (first_stop _) as [|e|]; [reflexivity| |contradiction].
  now intros ->.
Qed.

(** ** The root endpoint *)

(** C1.  A GET request to [/] that is answered at all is answered by the
    view with status 200, and the body has the fixed message and a [db]
    field that is "reachable" or "unreachable", "reachable" exactly when
    [check_db] returned [True]; a status-500 answer or a framework answer
    is impossible.  When the database answers the probe (each step that is
    reached comes back, with an error or without), the request is
    answered. *)
Theorem index_always_200 (w : psycopg2_world) (st : state) (r : request) :
  method r = GET -> path r = "/" ->
  (forall x, fst (wsgi_app w r st) = Val x ->
     exists v,
       x = ViewReply
             (MkResponse 200 "application/json"
                (Json (<["db" := v]>
                         (<["message" := "DevOps Platform Demo App"]> ∅)))) /\
       (v = "reachable" \/ v = "unreachable") /\
       (v = "reachable" <-> fst (check_db w st) = Val true)) /\
  (answers w (globals st) (next_conn st) ->
     exists resp,
       fst (wsgi_app w r st) = Val (ViewReply resp) /\
       status resp = 200%Z /\
       json_field resp "message" = Some "DevOps Platform Demo App" /\
       json_field resp "db" =
         Some (if reachable_at w (globals st) (next_conn st)
               then "reachable" else "unreachable")).
Proof.
  intros Hm Hp. split.
  - intros x. rewrite (wsgi_app_root w st r Hm Hp).
    pose proof (check_db_exc w st) as Hexc.
    destruct (check_db w st) as [[ok|e|] st']; cbn [fst] in *.
    + intros [= <-].
      exists (if ok then "reachable" else "unreachable").
      split; [reflexivity|].
      destruct ok; split; auto; split; auto; discriminate.
    + rewrite (Hexc e eq_refl). discriminate.
    + discriminate.
  - intros Ha. exists (root_response (reachable_at w (globals st) (next_conn st))).
    rewrite (wsgi_app_root w st r Hm Hp).
    pose proof (answers_check_db w st Ha) as Hr.
    destruct (check_db w st) as [[ok|e|] st']; cbn [fst] in *;
      try discriminate.
    injection Hr as ->.
    split; [reflexivity|]. split; [reflexivity|].
    unfold json_field, root_response, jsonify; cbn [body].
    split.
    + rewrite lookup_insert_ne by discriminate.
      apply lookup_insert_eq.
    + apply lookup_insert_eq.
Qed.

(** The theorem at work: a database that is down. *)
Lemma index_always_200_witness :
  exists resp,
    fst (wsgi_app world_down (get "/") st0) = Val (ViewReply resp) /\
    status resp = 200%Z /\
    json_field resp "message" = Some "DevOps Platform Demo App" /\
    json_field resp "db" = Some "unreachable".
Proof.
  apply (index_always_200 world_down st0 (get "/") eq_refl eq_refl).
  exact eq_refl.
Defined.

(** ** The health endpoint *)

(** C4.  A GET request to [/health] is answered with status 200 and the
    JSON object with the single field [status] = "ok", whatever the
    database does; the state is left as it was: no connection attempt is
    counted and no call is made, whereas a run of [check_db] always counts
    one. *)
Theorem health_always_ok (w : psycopg2_world) (st : state)
    (q : string) (h : list (string * string)) (d : string) :
  wsgi_app w (MkRequest GET "/health" q h d) st =
    (Val (ViewReply
            (MkResponse 200 "application/json"
               (Json (<["status" := "ok"]> ∅)))), st) /\
  (forall k,
     json_field (jsonify (<["status" := "ok"]> ∅)) k =
       if String.eqb k "status" then Some "ok" else None) /\
  (forall w' st', snd (check_db w' st') <> st').
Proof.
  split; [|split].
  - apply wsgi_app_health; reflexivity.
  - intros k. unfold json_field, jsonify; cbn [body].
    destruct (String.eqb_spec k "status") as [->|Hk].
    + apply lookup_insert_eq.
    + rewrite lookup_insert_ne by congruence. apply lookup_empty.
  - intros w' st' Heq.
    pose proof (check_db_state w' st') as (_ & Hn & _).
    cbv zeta in Hn. rewrite Heq in Hn. lia.
Qed.

(** ** Which calls a probe makes *)

(** Case analysis on the world's answers to the five steps of the probe
    that [check_db w st] is about to make. *)
Ltac probe_cases w st :=
  let g := fresh "g" in
  let n := fresh "n" in
  let tr := fresh "tr" in
  destruct st as [g n tr];
  rewrite ?check_db_run;
  unfold calls_made, probe_steps, probe_events, probe_kwargs in *;
  cbn [globals next_conn trace] in *;
  destruct (connect_outcome w n _) as [|?e|];
    [destruct (cursor_outcome w n) as [|?e|];
     [destruct (execute_outcome w n _) as [|?e|];
      [destruct (cursor_close_outcome w n) as [|?e|];
       [destruct (conn_close_outcome w n) as [|?e|]|..]|..]|..]|..];
  cbn [first_stop returned firstn] in *;
  repeat match goal with
         | |- context [is_Exception ?e] => destruct (is_Exception e) eqn:?
         end;
  cbn [fst snd globals next_conn trace emit] in *.

(** [conn.close()] is called only after the cursor has been closed
    successfully. *)
Lemma conn_close_called_iff (w : psycopg2_world) (g : module_globals)
    (n : nat) :
  In (EvConnClose n) (calls_made w g n) <->
  (4 <= returned (probe_steps w g n))%nat.
Proof.
  unfold calls_made, probe_steps, probe_events.
  destruct (connect_outcome w n _);
    [destruct (cursor_outcome w n);
     [destruct (execute_outcome w n _);
      [destruct (cursor_close_outcome w n);
       [destruct (conn_close_outcome w n)|..]|..]|..]|..];
    cbn [returned firstn In];
    (split; [intros H; repeat destruct H as [H|H]; try discriminate H;
             try contradiction; lia
            | intros H; try lia; auto 10]).
Qed.

(** C3 fails on the code.  The server accepts the connection and the query
    raises: [check_db] returns [False] having opened connection 0 and
    never called [close] on it. *)
Theorem check_db_leaks_connection_on_query_error :
  check_db world_query_error st0 =
    (Val false,
     MkState default_globals 1
       [ EvConnect 0 (probe_kwargs default_globals);
         EvCursor 0;
         EvExecute 0 "SELECT 1";
         EvLogDebug
           "DB check failed: server closed the connection unexpectedly" ]) /\
  In (EvConnect 0 (probe_kwargs default_globals))
    (trace (snd (check_db world_query_error st0))) /\
  ~ In (EvConnClose 0) (trace (snd (check_db world_query_error st0))).
Proof.
  split; [reflexivity|]. split.
  - left. reflexivity.
  - cbn. intros H. repeat destruct H as [H|H]; try discriminate H.
    contradiction.
Qed.

(** C5.  One run of [check_db] makes exactly one call to
    [psycopg2.connect], with [connect_timeout=2]; it runs at most one
    query, exactly one when the connection and its cursor are obtained,
    and that query is [SELECT 1]; when it returns [True] the calls are, in
    order: connect, cursor, execute, close cursor, close connection. *)
Theorem check_db_single_attempt (w : psycopg2_world) (st : state) :
  let g := globals st in
  let n := next_conn st in
  let kw :=
    MkKwargs (DB_HOST g) (DB_PORT g) (DB_NAME g) (DB_USER g) (DB_PASS g) 2 in
  exists evs,
    trace (snd (check_db w st)) = (trace st ++ evs)%list /\
    List.filter is_connect evs = [EvConnect n kw] /\
    map timeout_of (List.filter is_connect evs) = [Some 2%Z] /\
    List.filter is_execute evs =
      match connect_outcome w n kw, cursor_outcome w n with
      | Returns, Returns => [EvExecute n "SELECT 1"]
      | _, _ => []
      end /\
    (fst (check_db w st) = Val true ->
     evs = [ EvConnect n kw; EvCursor n; EvExecute n "SELECT 1";
             EvCursorClose n; EvConnClose n ]).
Proof.
  cbv zeta. probe_cases w st; rewrite <- ?app_assoc;
    (eexists; split; [reflexivity|]);
    repeat split; try reflexivity; discriminate.
Qed.

(** C7.  Of the calls of a probe only [psycopg2.connect] is given a
    timeout.  When the connection and its cursor are obtained and the
    query never comes back, [check_db] never returns: it neither yields a
    value nor raises, the request gets no reply, and no later request is
    served. *)
Theorem query_phase_unbounded (w : psycopg2_world) (st : state)
    (r : request) (rs : list request) :
  let g := globals st in
  let n := next_conn st in
  let kw :=
    MkKwargs (DB_HOST g) (DB_PORT g) (DB_NAME g) (DB_USER g) (DB_PASS g) 2 in
  method r = GET -> path r = "/" ->
  connect_outcome w n kw = Returns ->
  cursor_outcome w n = Returns ->
  execute_outcome w n "SELECT 1" = Hangs ->
  check_db w st =
    (Div,
     MkState g (S n)
       (trace st ++ [EvConnect n kw; EvCursor n; EvExecute n "SELECT 1"])) /\
  map timeout_of [EvConnect n kw; EvCursor n; EvExecute n "SELECT 1"] =
    [Some 2%Z; None; None] /\
  fst (wsgi_app w r st) = Div /\
  fst (serve w (r :: rs) st) = Div.
Proof.
  cbv zeta. intros Hm Hp Hc Hk He.
  assert (Hrun : check_db w st =
    (Div,
     MkState (globals st) (S (next_conn st))
       (trace st ++ [EvConnect (next_conn st) (probe_kwargs (globals st));
                     EvCursor (next_conn st);
                     EvExecute (next_conn st) "SELECT 1"]))).
  { rewrite check_db_run. cbv zeta.
    unfold calls_made, probe_steps, probe_events.
    fold (probe_kwargs (globals st)) in Hc. rewrite Hc, Hk, He.
    reflexivity. }
  assert (Hw : fst (wsgi_app w r st) = Div).
  { rewrite (wsgi_app_root w st r Hm Hp), Hrun. reflexivity. }
  split; [exact Hrun|]. split; [reflexivity|]. split; [exact Hw|].
  cbn [serve]. unfold bind.
  destruct (wsgi_app w r st) as [[x|e|] st']; cbn [fst] in Hw;
    try discriminate. reflexivity.
Qed.

Lemma query_phase_unbounded_witness :
  check_db world_query_hangs st0 =
    (Div,
     MkState default_globals 1
       [ EvConnect 0 (probe_kwargs default_globals); EvCursor 0;
         EvExecute 0 "SELECT 1" ]) /\
  map timeout_of
    [ EvConnect 0 (probe_kwargs default_globals); EvCursor 0;
      EvExecute 0 "SELECT 1" ] = [Some 2%Z; None; None] /\
  fst (wsgi_app world_query_hangs (get "/") st0) = Div /\
  fst (serve world_query_hangs [get "/"; get "/health"] st0) = Div.
Proof.
  apply (query_phase_unbounded world_query_hangs st0 (get "/")
           [get "/health"]); reflexivity.
Defined.

(** ** No caching: every request to the root probes afresh *)

Lemma check_db_connects_once (w : psycopg2_world) (st : state) :
  exists evs,
    trace (snd (check_db w st)) = (trace st ++ evs)%list /\
    List.filter is_connect evs =
      [EvConnect (next_conn st) (probe_kwargs (globals st))].
Proof.
  probe_cases w st; rewrite <- ?app_assoc;
    (eexists; split; reflexivity).
Qed.

(** C6.  Serve any number of GET requests to [/], one after the other,
    against a database that answers each probe.  Every request is
    answered, and the [k]-th answer reports what the world does at the
    [k]-th new connection attempt: nothing is remembered from one request
    to the next.  The calls made contain one [psycopg2.connect] per
    request, each on a fresh connection. *)
Theorem index_probes_every_request (w : psycopg2_world)
    (rs : list request) (st : state) :
  Forall (fun r => method r = GET /\ path r = "/") rs ->
  Forall (answers w (globals st)) (seq (next_conn st) (length rs)) ->
  exists st',
    serve w rs st =
      (Val (map (fun n =>
                   ViewReply (root_response (reachable_at w (globals st) n)))
              (seq (next_conn st) (length rs))),
       st') /\
    globals st' = globals st /\
    next_conn st' = (next_conn st + length rs)%nat /\
    exists evs,
      trace st' = (trace st ++ evs)%list /\
      List.filter is_connect evs =
        map (fun n => EvConnect n (probe_kwargs (globals st)))
          (seq (next_conn st) (length rs)).
Proof.
  revert st. induction rs as [|r rs IH]; intros st Hrs Hans.
  - exists st. cbn. repeat split; try lia.
    exists []. now rewrite app_nil_r.
  - inversion Hrs as [|? ? [Hm Hp] Hrs']; subst.
    cbn [length seq] in Hans. inversion Hans as [|? ? Ha Hans']; subst.
    pose proof (answers_check_db w st Ha) as Hres.
    pose proof (check_db_state w st) as (Hg & Hn & _).
    pose proof (check_db_connects_once w st) as (evs1 & Htr1 & Hf1).
    cbv zeta in Hg, Hn.
    cbn [serve length seq map]. unfold bind at 1.
    rewrite (wsgi_app_root w st r Hm Hp).
    destruct (check_db w st) as [res st1]; cbn [fst snd] in *. subst res.
    destruct (IH st1 Hrs') as (st' & Hserve & Hg' & Hn' & evs & Htr & Hf).
    { rewrite Hg, Hn. exact Hans'. }
    exists st'. unfold bind at 1. rewrite Hserve. unfold ret.
    rewrite Hg, Hn in *.
    split; [reflexivity|]. split; [exact Hg'|]. split; [lia|].
    exists (evs1 ++ evs)%list. split.
    + now rewrite Htr, Htr1, app_assoc.
    + now rewrite List.filter_app, Hf1, Hf.
Qed.

Lemma index_probes_every_request_witness :
  exists st',
    serve world_flapping [get "/"; get "/"; get "/"] st0 =
      (Val [ ViewReply (root_response true);
             ViewReply (root_response false);
             ViewReply (root_response true) ], st') /\
    globals st' = default_globals /\
    next_conn st' = 3%nat /\
    exists evs,
      trace st' = evs /\
      List.filter is_connect evs =
        [ EvConnect 0 (probe_kwargs default_globals);
          EvConnect 1 (probe_kwargs default_globals);
          EvConnect 2 (probe_kwargs default_globals) ].
Proof.
  apply (index_probes_every_request world_flapping
           [get "/"; get "/"; get "/"] st0).
  - repeat constructor.
  - repeat constructor.
Defined.

(** ** Configuration *)

Example int_examples :
  map int_of_ascii_str
    ["5432"; " 8080 "; "-1"; "54_32"; "abc"; ""; "5432.0"; "0x10"; "1__0";
     "+ 1"; "12 3"] =
    [Some 5432%Z; Some 8080%Z; Some (-1)%Z; Some 5432%Z; None; None; None;
     None; None; None; None].
Proof. reflexivity. Qed.

Lemma environ_get_str_default (environ : gmap string string)
    (key dflt : string) :
  environ_get_str environ key dflt = default dflt (environ !! key).
Proof. unfold environ_get_str. now destruct (environ !! key). Qed.

Lemma load_module_run (int_of_str : string -> option Z)
    (environ : gmap string string) :
  load_module int_of_str environ =
    match environ !! "DB_PORT" with
    | Some s =>
        match int_of_str s with
        | Some z =>
            Val (MkGlobals
                   (default "host.docker.internal" (environ !! "DB_HOST")) z
                   (default "dev_db" (environ !! "DB_NAME"))
                   (default "dev" (environ !! "DB_USER"))
                   (default "devpass" (environ !! "DB_PASS")))
        | None =>
            Exc (MkExc ValueError
                   ("invalid literal for int() with base 10: '" ++ s ++ "'"))
        end
    | None =>
        Val (MkGlobals
               (default "host.docker.internal" (environ !! "DB_HOST")) 5432
               (default "dev_db" (environ !! "DB_NAME"))
               (default "dev" (environ !! "DB_USER"))
               (default "devpass" (environ !! "DB_PASS")))
    end.
Proof.
  unfold load_module, environ_get, py_int.
  rewrite !environ_get_str_default.
  destruct (environ !! "DB_PORT") as [s|]; [|reflexivity].
  destruct (int_of_str s); reflexivity.
Qed.

(** C8.  A variable that is absent from the environment takes its default:
    [DB_HOST] "host.docker.internal", [DB_PORT] 5432, [DB_NAME] "dev_db",
    [DB_USER] "dev", [DB_PASS] "devpass"; with [DB_PORT] absent the import
    succeeds.  A probe passes the five globals, as they are, to
    [psycopg2.connect] as host, port, dbname, user and password; with an
    empty environment the first call of the program on a request to [/] is
    therefore a connect with the five defaults. *)
Theorem config_defaults (int_of_str : string -> option Z)
    (environ : gmap string string) :
  (environ !! "DB_PORT" = None ->
     exists g, load_module int_of_str environ = Val g) /\
  (forall g, load_module int_of_str environ = Val g ->
     (environ !! "DB_HOST" = None -> DB_HOST g = "host.docker.internal") /\
     (environ !! "DB_PORT" = None -> DB_PORT g = 5432%Z) /\
     (environ !! "DB_NAME" = None -> DB_NAME g = "dev_db") /\
     (environ !! "DB_USER" = None -> DB_USER g = "dev") /\
     (environ !! "DB_PASS" = None -> DB_PASS g = "devpass") /\
     forall w n tr, exists evs,
       trace (snd (check_db w (MkState g n tr))) =
         (tr ++
          EvConnect n
            (MkKwargs (DB_HOST g) (DB_PORT g) (DB_NAME g) (DB_USER g)
               (DB_PASS g) 2) :: evs)%list) /\
  load_module int_of_str ∅ =
    Val (MkGlobals "host.docker.internal" 5432 "dev_db" "dev" "devpass") /\
  (forall w, exists evs,
     snd (run_app int_of_str w ∅ [get "/"]) =
       EvConnect 0
         (MkKwargs "host.docker.internal" 5432 "dev_db" "dev" "devpass" 2)
       :: evs).
Proof.
  assert (Hfirst : forall w st, exists evs,
    trace (snd (check_db w st)) =
      (trace st ++
       EvConnect (next_conn st) (probe_kwargs (globals st)) :: evs)%list).
  { intros w st. probe_cases w st; rewrite <- ?app_assoc;
      (eexists; reflexivity). }
  split; [|split; [|split]].
  - intros Hp. rewrite load_module_run, Hp. eauto.
  - intros g. rewrite load_module_run.
    destruct (environ !! "DB_PORT") as [s|] eqn:Hp.
    + destruct (int_of_str s) as [z|]; [|discriminate].
      intros [= <-].
      repeat split; try (intros ->; reflexivity); try discriminate.
      intros w n tr. exact (Hfirst w (MkState _ n tr)).
    + intros [= <-].
      repeat split; try (intros ->; reflexivity).
      intros w n tr. exact (Hfirst w (MkState _ n tr)).
  - reflexivity.
  - intros w. unfold run_app.
    change (load_module int_of_str ∅) with (Val default_globals).
    cbn [serve]. unfold bind at 1.
    rewrite (wsgi_app_root w _ (get "/") eq_refl eq_refl).
    destruct (Hfirst w (MkState default_globals 0 [])) as (evs & Hevs).
    destruct (check_db w _) as [[ok|e|] st1]; cbn [snd] in Hevs.
    + unfold bind, ret. cbn [trace snd]. exists evs. exact Hevs.
    + destruct (is_Exception e); unfold bind, ret; cbn [trace snd];
        exists evs; exact Hevs.
    + exists evs. exact Hevs.
Qed.

(** C9.  When [DB_PORT] is set to a string on which [int] raises, the
    import raises [ValueError]; nothing catches it, so the program ends
    there: no request is answered and no call is made.  When [DB_PORT] is
    absent or [int] accepts it, the import succeeds whatever the other
    four variables hold, and each of them is taken as it is. *)
Theorem bad_port_fails_import (int_of_str : string -> option Z)
    (environ : gmap string string) :
  (forall s, environ !! "DB_PORT" = Some s -> int_of_str s = None ->
     exists msg,
       load_module int_of_str environ = Exc (MkExc ValueError msg) /\
       forall w rs,
         run_app int_of_str w environ rs = (Exc (MkExc ValueError msg), [])) /\
  (forall z, port_value int_of_str environ = Some z ->
     load_module int_of_str environ =
       Val (MkGlobals
              (default "host.docker.internal" (environ !! "DB_HOST")) z
              (default "dev_db" (environ !! "DB_NAME"))
              (default "dev" (environ !! "DB_USER"))
              (default "devpass" (environ !! "DB_PASS")))) /\
  (forall g, load_module int_of_str environ = Val g ->
     port_value int_of_str environ = Some (DB_PORT g)).
Proof.
  split; [|split].
  - intros s Hs Hint.
    assert (Hload : load_module int_of_str environ =
      Exc (MkExc ValueError
             ("invalid literal for int() with base 10: '" ++ s ++ "'"))).
    { now rewrite load_module_run, Hs, Hint. }
    eexists. split; [exact Hload|].
    intros w rs. unfold run_app. now rewrite Hload.
  - intros z. unfold port_value. rewrite load_module_run.
    destruct (environ !! "DB_PORT") as [s|].
    + now intros ->.
    + now intros [= <-].
  - intros g. unfold port_value. rewrite load_module_run.
    destruct (environ !! "DB_PORT") as [s|].
    + destruct (int_of_str s); [|discriminate]. now intros [= <-].
    + now intros [= <-].
Qed.

(** The theorem at work: [DB_PORT=abc], and [DB_PORT=8080] next to a host
    name and a password that are anything but tidy. *)
Lemma bad_port_fails_import_witness :
  (exists msg, forall w rs,
     run_app int_of_ascii_str w {["DB_PORT" := "abc"]} rs =
       (Exc (MkExc ValueError msg), [])) /\
  load_module int_of_ascii_str
    (<["DB_PASS" := ""]>
       (<["DB_HOST" := "not a host name"]> {["DB_PORT" := "8080"]})) =
    Val (MkGlobals "not a host name" 8080 "dev_db" "dev" "").
Proof.
  split.
  - destruct (proj1 (bad_port_fails_import int_of_ascii_str
                       {["DB_PORT" := "abc"]}) "abc")
      as (msg & _ & Hrun); [reflexivity | reflexivity |].
    exists msg. exact Hrun.
  - rewrite (proj1 (proj2 (bad_port_fails_import int_of_ascii_str
               (<["DB_PASS" := ""]>
                  (<["DB_HOST" := "not a host name"]>
                     {["DB_PORT" := "8080"]})))) 8080%Z)
      by reflexivity.
    reflexivity.
Defined.

(** ** The handlers are functions of the probe's answer *)

Lemma wsgi_app_globals (w : psycopg2_world) (st : state) (r : request) :
  globals (snd (wsgi_app w r st)) = globals st.
Proof.
  unfold wsgi_app, try_except_Exception, full_dispatch_request, url_map.
  cbn [match_rule].
  destruct (String.eqb "/" (path r)).
  - pose proof (check_db_state w st) as (Hg & _). cbv zeta in Hg.
    unfold index, bind, ret.
    destruct (method r); try reflexivity;
      destruct (check_db w st) as [[ok|e|] st']; cbn [snd] in *;
      try exact Hg; destruct (is_Exception e); exact Hg.
  - destruct (String.eqb "/health" (path r)); [|reflexivity].
    destruct (method r); reflexivity.
Qed.

(** C10.  Two requests to [/], in any two states and against any two
    databases, get the same response whenever [check_db] returns the same
    boolean in both; two requests to [/health] always get the same
    response.  What a request gets depends on its method and path only,
    not on its query string, headers or body; and handling a request
    leaves the module globals as they were. *)
Theorem handlers_deterministic :
  (forall w1 w2 st1 st2 r1 r2 b,
     method r1 = GET -> path r1 = "/" ->
     method r2 = GET -> path r2 = "/" ->
     fst (check_db w1 st1) = Val b -> fst (check_db w2 st2) = Val b ->
     exists resp,
       fst (wsgi_app w1 r1 st1) = Val (ViewReply resp) /\
       fst (wsgi_app w2 r2 st2) = Val (ViewReply resp)) /\
  (forall w1 w2 st1 st2 r1 r2,
     method r1 = GET -> path r1 = "/health" ->
     method r2 = GET -> path r2 = "/health" ->
     exists resp,
       fst (wsgi_app w1 r1 st1) = Val (ViewReply resp) /\
       fst (wsgi_app w2 r2 st2) = Val (ViewReply resp)) /\
  (forall w st r r',
     method r = method r' -> path r = path r' ->
     wsgi_app w r st = wsgi_app w r' st) /\
  (forall w st r, globals (snd (wsgi_app w r st)) = globals st).
Proof.
  split; [|split; [|split]].
  - intros w1 w2 st1 st2 r1 r2 b Hm1 Hp1 Hm2 Hp2 H1 H2.
    exists (root_response b).
    rewrite (wsgi_app_root w1 st1 r1 Hm1 Hp1),
      (wsgi_app_root w2 st2 r2 Hm2 Hp2).
    destruct (check_db w1 st1) as [res1 st1'],
      (check_db w2 st2) as [res2 st2']; cbn [fst] in *.
    subst res1 res2. split; reflexivity.
  - intros w1 w2 st1 st2 r1 r2 Hm1 Hp1 Hm2 Hp2.
    rewrite (wsgi_app_health w1 st1 r1 Hm1 Hp1),
      (wsgi_app_health w2 st2 r2 Hm2 Hp2).
    eexists. split; reflexivity.
  - intros w st r r' Hm Hp.
    unfold wsgi_app, full_dispatch_request. now rewrite Hm, Hp.
  - exact wsgi_app_globals.
Qed.

(** The theorem at work: a refused connection and a failed query, on
    requests that differ in everything but method and path. *)
Lemma handlers_deterministic_witness :
  exists resp,
    fst (wsgi_app world_down (get "/") st0) = Val (ViewReply resp) /\
    fst (wsgi_app world_query_error
           (MkRequest GET "/" "verbose=1" [("Accept", "text/html")] "x")
           (MkState default_globals 7 [EvLogDebug "earlier"])) =
      Val (ViewReply resp).
Proof.
  exact (proj1 handlers_deterministic world_down world_query_error st0
           (MkState default_globals 7 [EvLogDebug "earlier"]) (get "/")
           (MkRequest GET "/" "verbose=1" [("Accept", "text/html")] "x")
           false eq_refl eq_refl eq_refl eq_refl eq_refl eq_refl).
Defined.

(** * Further properties of the code *)

(** ** One probe, call by call *)

(** The calls of one run of [check_db]: the first [k] of the five psycopg2
    calls, then at most one log line. *)
Lemma check_db_delta (w : psycopg2_world) (st : state) :
  exists k log,
    (1 <= k <= 5)%nat /\
    trace (snd (check_db w st)) =
      (trace st ++
       firstn k (probe_events (globals st) (next_conn st)) ++ log)%list /\
    (log = [] \/ exists msg, log = [EvLogDebug msg]).
Proof.
  probe_cases w st; rewrite <- ?app_assoc;
    first
      [ solve [exists 1%nat; eexists; split; [lia|]; split;
               [reflexivity | eauto]]
      | solve [exists 2%nat; eexists; split; [lia|]; split;
               [reflexivity | eauto]]
      | solve [exists 3%nat; eexists; split; [lia|]; split;
               [reflexivity | eauto]]
      | solve [exists 4%nat; eexists; split; [lia|]; split;
               [reflexivity | eauto]]
      | solve [exists 5%nat; eexists; split; [lia|]; split;
               [reflexivity | eauto]] ].
Qed.

(** X1.  Whatever the database does, the psycopg2 calls of one run of
    [check_db] are made in the order connect, cursor, execute, close
    cursor, close connection, all on the connection just opened, stopping
    after the first call that does not return; a log line, if any, comes
    last. *)
Theorem check_db_calls_in_order (w : psycopg2_world) (st : state) :
  let g := globals st in
  let n := next_conn st in
  let kw :=
    MkKwargs (DB_HOST g) (DB_PORT g) (DB_NAME g) (DB_USER g) (DB_PASS g) 2 in
  exists k log,
    (1 <= k <= 5)%nat /\
    trace (snd (check_db w st)) =
      (trace st ++
       firstn k [ EvConnect n kw; EvCursor n; EvExecute n "SELECT 1";
                  EvCursorClose n; EvConnClose n ] ++ log)%list /\
    (log = [] \/ exists msg, log = [EvLogDebug msg]) /\
    (forall j, (j < k - 1)%nat ->
       nth j (probe_steps w g n) Hangs = Returns) /\
    ((k < 5)%nat -> nth (k - 1) (probe_steps w g n) Returns <> Returns).
Proof.
  cbv zeta. probe_cases w st; rewrite <- ?app_assoc;
    first
      [ solve [exists 1%nat; eexists; split; [lia|]; split; [reflexivity|];
               split; [eauto|]; split;
               [intros j Hj; lia | intros _; cbn; discriminate]]
      | solve [exists 2%nat; eexists; split; [lia|]; split; [reflexivity|];
               split; [eauto|]; split;
               [intros [|j] Hj; [reflexivity | lia]
               | intros _; cbn; discriminate]]
      | solve [exists 3%nat; eexists; split; [lia|]; split; [reflexivity|];
               split; [eauto|]; split;
               [intros [|[|j]] Hj; try reflexivity; lia
               | intros _; cbn; discriminate]]
      | solve [exists 4%nat; eexists; split; [lia|]; split; [reflexivity|];
               split; [eauto|]; split;
               [intros [|[|[|j]]] Hj; try reflexivity; lia
               | intros _; cbn; discriminate]]
      | solve [exists 5%nat; eexists; split; [lia|]; split; [reflexivity|];
               split; [eauto|]; split;
               [intros [|[|[|[|j]]]] Hj; try reflexivity; lia
               | intros Hk; lia]] ].
Qed.

(** X2.  [check_db] writes to the log exactly when it returns [False]: one
    debug line, after its last psycopg2 call, made of the fixed prefix and
    the text of the error raised by the step that failed.  When it returns
    [True], lets an exception through or never returns, it logs nothing. *)
Theorem check_db_logs_failures (w : psycopg2_world) (st : state) :
  let os := probe_steps w (globals st) (next_conn st) in
  exists evs,
    trace (snd (check_db w st)) = (trace st ++ evs)%list /\
    (fst (check_db w st) = Val false ->
     exists e calls,
       first_stop os = Raises e /\
       evs = (calls ++ [EvLogDebug ("DB check failed: " ++ exc_msg e)])%list /\
       List.filter is_log calls = []) /\
    (fst (check_db w st) <> Val false -> List.filter is_log evs = []).
Proof.
  cbv zeta. probe_cases w st; rewrite <- ?app_assoc;
    (eexists; split; [reflexivity|]; split);
    try discriminate;
    try (intros _; reflexivity);
    try (intros H; exfalso; apply H; reflexivity);
    intros _;
    match goal with
    | |- exists e calls, Raises ?e0 = Raises e /\ ?l = _ /\ _ =>
        exists e0, (removelast l)
    end;
    repeat split.
Qed.

(** X3.  When the cleanup calls are made.  [conn.close()] is called exactly
    when connect, cursor, execute and [cur.close()] have all returned;
    [cur.close()] is called exactly when connect, cursor and execute have
    returned.  Neither is called more than once. *)
Theorem check_db_cleanup (w : psycopg2_world) (st : state) :
  let g := globals st in
  let n := next_conn st in
  let kw :=
    MkKwargs (DB_HOST g) (DB_PORT g) (DB_NAME g) (DB_USER g) (DB_PASS g) 2 in
  exists evs,
    trace (snd (check_db w st)) = (trace st ++ evs)%list /\
    (In (EvConnClose n) evs <->
       connect_outcome w n kw = Returns /\
       cursor_outcome w n = Returns /\
       execute_outcome w n "SELECT 1" = Returns /\
       cursor_close_outcome w n = Returns) /\
    (In (EvCursorClose n) evs <->
       connect_outcome w n kw = Returns /\
       cursor_outcome w n = Returns /\
       execute_outcome w n "SELECT 1" = Returns) /\
    (length (List.filter
               (fun ev => match ev with EvConnClose _ => true | _ => false end)
               evs) <= 1)%nat /\
    (length (List.filter
               (fun ev =>
                  match ev with EvCursorClose _ => true | _ => false end)
               evs) <= 1)%nat.
Proof.
  cbv zeta.
  destruct st as [g n tr]. rewrite check_db_run.
  unfold calls_made, probe_steps, probe_events, probe_kwargs.
  cbn [globals next_conn trace].
  destruct (connect_outcome w n _) as [|e1|];
    [destruct (cursor_outcome w n) as [|e2|];
     [destruct (execute_outcome w n _) as [|e3|];
      [destruct (cursor_close_outcome w n) as [|e4|];
       [destruct (conn_close_outcome w n) as [|e5|]|..]|..]|..]|..];
    cbn [first_stop returned firstn];
    repeat match goal with
           | |- context [is_Exception ?e] => destruct (is_Exception e)
           end;
    cbn [fst snd globals next_conn trace emit]; rewrite <- ?app_assoc;
    (eexists; split; [reflexivity|]);
    cbn [In List.filter length app];
    (split; [|split; [|split]]);
    try lia;
    (split;
     [ intros H; repeat destruct H as [H|H]; try discriminate H;
       try contradiction; auto
     | intros H; decompose [and] H; try discriminate; auto 10 ]).
Qed.

(** ** Requests of any method and path *)

Lemma wsgi_app_probe (w : psycopg2_world) (st : state) (r : request) :
  probes r = true ->
  wsgi_app w r st =
    match check_db w st with
    | (Val ok, st') =>
        (Val (ViewReply
                (match method r with
                 | HEAD =>
                     MkResponse (status (root_response ok))
                       (mimetype (root_response ok)) NoBody
                 | _ => root_response ok
                 end)), st')
    | (Exc e, st') =>
        if is_Exception e then (Val (ServerError e), st') else (Exc e, st')
    | (Div, st') => (Div, st')
    end.
Proof.
  unfold probes, wsgi_app, try_except_Exception, full_dispatch_request,
    url_map. cbn [match_rule].
  destruct (String.eqb "/" (path r)); [|discriminate].
  unfold index, bind, ret, root_response.
  destruct (method r); try discriminate; intros _;
    destruct (check_db w st) as [[ok|e|] st']; reflexivity.
Qed.

Lemma wsgi_app_no_probe (w : psycopg2_world) (st : state) (r : request) :
  probes r = false ->
  exists x,
    wsgi_app w r st = (Val x, st) /\
    (x = FrameworkReply \/
     exists resp, x = ViewReply resp /\ status resp = 200%Z).
Proof.
  unfold probes, wsgi_app, try_except_Exception, full_dispatch_request,
    url_map. cbn [match_rule].
  destruct (String.eqb "/" (path r)).
  - destruct (method r); try discriminate; intros _;
      (eexists; split; [reflexivity | left; reflexivity]).
  - intros _. destruct (String.eqb "/health" (path r)).
    + destruct (method r);
        (eexists; split;
         [reflexivity
         | first [left; reflexivity
                 | right; eexists; split; reflexivity]]).
    + eexists. split; [reflexivity | left; reflexivity].
Qed.

(** X4.  Which requests reach the database.  A request to [/] with method
    GET or HEAD makes exactly one connection attempt; every other request
    (another path, [/health], another method) is answered without any
    call being made and leaves the state as it was, whatever the database
    does. *)
Theorem wsgi_app_probes_iff (w : psycopg2_world) (st : state)
    (r : request) :
  if probes r
  then next_conn (snd (wsgi_app w r st)) = S (next_conn st) /\
       exists evs,
         trace (snd (wsgi_app w r st)) = (trace st ++ evs)%list /\
         List.filter is_connect evs =
           [EvConnect (next_conn st)
              (MkKwargs (DB_HOST (globals st)) (DB_PORT (globals st))
                 (DB_NAME (globals st)) (DB_USER (globals st))
                 (DB_PASS (globals st)) 2)]
  else snd (wsgi_app w r st) = st /\
       exists x, fst (wsgi_app w r st) = Val x.
Proof.
  destruct (probes r) eqn:Hp.
  - rewrite (wsgi_app_probe w st r Hp).
    pose proof (check_db_state w st) as (_ & Hn & _).
    pose proof (check_db_connects_once w st) as Hc.
    cbv zeta in Hn.
    destruct (check_db w st) as [[ok|e|] st']; cbn [fst snd] in *;
      try (split; [exact Hn | exact Hc]).
    destruct (is_Exception e); cbn [snd]; split; assumption.
  - destruct (wsgi_app_no_probe w st r Hp) as (x & Hx & _).
    rewrite Hx. split; [reflexivity | now exists x].
Qed.

(** X5.  No request is ever answered with a server error: whatever the
    method, the path and the database, a reply is either the framework's
    own or a view's response with status 200. *)
Theorem no_server_error (w : psycopg2_world) (st : state) (r : request) :
  match fst (wsgi_app w r st) with
  | Val (ViewReply resp) => status resp = 200%Z
  | Val FrameworkReply => True
  | Val (ServerError _) => False
  | Exc e => is_Exception e = false
  | Div => True
  end.
Proof.
  destruct (probes r) eqn:Hp.
  - rewrite (wsgi_app_probe w st r Hp).
    pose proof (check_db_exc w st) as Hexc.
    destruct (check_db w st) as [[ok|e|] st']; cbn [fst] in *.
    + destruct (method r); reflexivity.
    + rewrite (Hexc e eq_refl). exact (Hexc e eq_refl).
    + exact I.
  - destruct (wsgi_app_no_probe w st r Hp) as (x & Hx & Hshape).
    rewrite Hx. cbn [fst].
    destruct Hshape as [->|(resp & -> & Hs)]; [exact I | exact Hs].
Qed.

(** ** Whole runs *)

Lemma wsgi_app_state (w : psycopg2_world) (st : state) (r : request) :
  snd (wsgi_app w r st) = if probes r then snd (check_db w st) else st.
Proof.
  destruct (probes r) eqn:Hp.
  - rewrite (wsgi_app_probe w st r Hp).
    destruct (check_db w st) as [[ok|e|] st']; try reflexivity.
    destruct (is_Exception e); reflexivity.
  - destruct (wsgi_app_no_probe w st r Hp) as (x & -> & _). reflexivity.
Qed.

Lemma serve_cons (w : psycopg2_world) (r : request) (rs : list request)
    (st : state) :
  serve w (r :: rs) st =
    match wsgi_app w r st with
    | (Val x, st1) =>
        match serve w rs st1 with
        | (Val xs, st2) => (Val (x :: xs), st2)
        | (Exc e, st2) => (Exc e, st2)
        | (Div, st2) => (Div, st2)
        end
    | (Exc e, st1) => (Exc e, st1)
    | (Div, st1) => (Div, st1)
    end.
Proof.
  cbn [serve]. unfold bind, ret.
  destruct (wsgi_app w r st) as [[x|e|] st1]; reflexivity.
Qed.

(** A property of states kept by every request is kept by a run. *)
Lemma serve_invariant (w : psycopg2_world) (P : state -> Prop) :
  (forall r st, P st -> P (snd (wsgi_app w r st))) ->
  forall rs st, P st -> P (snd (serve w rs st)).
Proof.
  intros Hstep rs. induction rs as [|r rs IH]; intros st HP.
  - exact HP.
  - rewrite serve_cons. specialize (Hstep r st HP).
    destruct (wsgi_app w r st) as [[x|e|] st1]; cbn [snd] in *;
      try exact Hstep.
    specialize (IH st1 Hstep).
    destruct (serve w rs st1) as [[xs|e|] st2]; exact IH.
Qed.

Lemma filter_on_conn_probe_events (g : module_globals) (c n k : nat) :
  List.filter (on_conn c) (firstn k (probe_events g n)) =
    if Nat.eqb c n then firstn k (probe_events g n) else [].
Proof.
  unfold probe_events.
  do 6 (destruct k as [|k];
        [cbn [firstn List.filter on_conn conn_of];
         destruct (Nat.eqb c n); reflexivity|]).
  cbn [firstn List.filter on_conn conn_of].
  destruct (Nat.eqb c n); reflexivity.
Qed.

Lemma check_db_per_connection (w : psycopg2_world) (g : module_globals)
    (st : state) :
  per_connection g st -> per_connection g (snd (check_db w st)).
Proof.
  intros (Hg & Hfresh & Hpre).
  pose proof (check_db_state w st) as (Hg' & Hn' & _).
  destruct (check_db_delta w st) as (k & log & Hk & Htr & Hlog).
  cbv zeta in Hg', Hn'.
  assert (Hflog : forall c, List.filter (on_conn c) log = []).
  { intros c. destruct Hlog as [->|(msg & ->)]; reflexivity. }
  assert (Hf : forall c,
    List.filter (on_conn c) (trace (snd (check_db w st))) =
      (List.filter (on_conn c) (trace st) ++
       if Nat.eqb c (next_conn st)
       then firstn k (probe_events g (next_conn st)) else [])%list).
  { intros c.
    rewrite Htr, !List.filter_app, Hflog, app_nil_r, Hg.
    now rewrite filter_on_conn_probe_events. }
  split; [congruence|]. split.
  - intros c Hc. rewrite Hn' in Hc. rewrite Hf, Hfresh by lia.
    destruct (Nat.eqb_spec c (next_conn st)); [lia | reflexivity].
  - intros c. rewrite Hf.
    destruct (Nat.eqb_spec c (next_conn st)) as [->|Hne].
    + rewrite Hfresh by lia. exists k. split; [lia | reflexivity].
    + rewrite app_nil_r. apply Hpre.
Qed.

Lemma serve_per_connection (w : psycopg2_world) (g : module_globals)
    (rs : list request) (st : state) :
  per_connection g st -> per_connection g (snd (serve w rs st)).
Proof.
  apply serve_invariant. clear st. intros r st Hst.
  rewrite wsgi_app_state.
  destruct (probes r); [now apply check_db_per_connection | exact Hst].
Qed.

Lemma per_connection_start (g : module_globals) :
  per_connection g (MkState g 0 []).
Proof.
  split; [reflexivity|]. split; [reflexivity|].
  intros c. exists 0%nat. split; [lia | reflexivity].
Qed.

(** X6.  Connection by connection: in the calls of a whole run, whatever
    the requests and whatever the database does, the calls made on any one
    connection are an initial part of connect, cursor, execute, close
    cursor, close connection.  So no connection is used before it is
    opened or after it is closed, none is closed twice, and no request
    touches the connection of another. *)
Theorem run_per_connection (w : psycopg2_world) (g : module_globals)
    (rs : list request) (c : connection) :
  let kw :=
    MkKwargs (DB_HOST g) (DB_PORT g) (DB_NAME g) (DB_USER g) (DB_PASS g) 2 in
  exists k,
    (k <= 5)%nat /\
    List.filter (on_conn c) (trace (snd (serve w rs (MkState g 0 [])))) =
      firstn k [ EvConnect c kw; EvCursor c; EvExecute c "SELECT 1";
                 EvCursorClose c; EvConnClose c ].
Proof.
  cbv zeta.
  destruct (serve_per_connection w g rs _ (per_connection_start g))
    as (_ & _ & Hpre).
  exact (Hpre c).
Qed.

Lemma wsgi_app_count (w : psycopg2_world) (st : state) (r : request) :
  let st1 := snd (wsgi_app w r st) in
  let d := if probes r then 1%nat else 0%nat in
  next_conn st1 = (next_conn st + d)%nat /\
  length (List.filter is_connect (trace st1)) =
    (length (List.filter is_connect (trace st)) + d)%nat.
Proof.
  cbv zeta. rewrite wsgi_app_state.
  destruct (probes r); [|split; lia].
  pose proof (check_db_state w st) as (_ & Hn & _). cbv zeta in Hn.
  destruct (check_db_connects_once w st) as (evs & Htr & Hf).
  split; [lia|].
  rewrite Htr, List.filter_app, length_app, Hf. reflexivity.
Qed.

(** X7.  Counting connection attempts over a run of any requests.  The
    number of [psycopg2.connect] calls equals the number of attempts
    counted, which never exceeds the number of GET and HEAD requests to
    [/] and equals it when every request was answered; in that case there
    is one reply per request. *)
Theorem serve_attempts (w : psycopg2_world) (rs : list request)
    (st : state) :
  let st' := snd (serve w rs st) in
  (next_conn st <= next_conn st')%nat /\
  (next_conn st' <= next_conn st + length (List.filter probes rs))%nat /\
  length (List.filter is_connect (trace st')) =
    (length (List.filter is_connect (trace st)) +
     (next_conn st' - next_conn st))%nat /\
  (forall xs, fst (serve w rs st) = Val xs ->
     length xs = length rs /\
     next_conn st' =
       (next_conn st + length (List.filter probes rs))%nat).
Proof.
  cbv zeta. revert st. induction rs as [|r rs IH]; intros st.
  - cbn. split; [lia|]. split; [lia|]. split; [lia|].
    intros xs [= <-]. split; [reflexivity | lia].
  - rewrite serve_cons.
    pose proof (wsgi_app_count w st r) as (Hn & Hc). cbv zeta in Hn, Hc.
    cbn [List.filter].
    assert (Hd : length (List.filter probes (r :: rs)) =
                 ((if probes r then 1 else 0) +
                  length (List.filter probes rs))%nat).
    { cbn [List.filter]. destruct (probes r); reflexivity. }
    cbn [List.filter] in Hd. rewrite Hd. clear Hd.
    destruct (wsgi_app w r st) as [[x|e|] st1]; cbn [fst snd] in *.
    + specialize (IH st1). destruct IH as (IH0 & IH1 & IH2 & IH3).
      destruct (serve w rs st1) as [[xs|e|] st2]; cbn [fst snd] in *;
        (split; [lia|]; split; [lia|]; split; [lia|]);
        try (intros ? Hval; discriminate Hval).
      intros ys [= <-]. destruct (IH3 xs eq_refl) as (Hl & Hn2).
      cbn [length]. split; lia.
    + split; [lia|]. split; [lia|]. split; [lia|]. intros ? [=].
    + split; [lia|]. split; [lia|]. split; [lia|]. intros ? [=].
Qed.

Lemma In_firstn_In {A : Type} (x : A) (k : nat) (l : list A) :
  In x (firstn k l) -> In x l.
Proof.
  revert l. induction k as [|k IH]; intros [|y l]; cbn; try tauto.
  intros [->|H]; [now left | right; now apply IH].
Qed.

(** X8.  The connection parameters are fixed at import.  Every
    [psycopg2.connect] of a run, from the first request to the last, is
    given the values read from the environment when the module was
    loaded: each variable's value if it is set, its default otherwise, and
    [connect_timeout=2]. *)
Theorem run_uses_import_time_parameters
    (int_of_str : string -> option Z) (w : psycopg2_world)
    (environ : gmap string string) (rs : list request)
    (c : connection) (kw : connect_kwargs) :
  In (EvConnect c kw) (snd (run_app int_of_str w environ rs)) ->
  exists p,
    port_value int_of_str environ = Some p /\
    kw = MkKwargs (default "host.docker.internal" (environ !! "DB_HOST")) p
           (default "dev_db" (environ !! "DB_NAME"))
           (default "dev" (environ !! "DB_USER"))
           (default "devpass" (environ !! "DB_PASS")) 2.
Proof.
  unfold run_app, port_value. rewrite load_module_run.
  assert (Hin : forall g,
    In (EvConnect c kw) (trace (snd (serve w rs (MkState g 0 [])))) ->
    kw = probe_kwargs g).
  { intros g Hin.
    destruct (serve_per_connection w g rs _ (per_connection_start g))
      as (_ & _ & Hpre).
    destruct (Hpre c) as (k & _ & Hk).
    assert (Hin' : In (EvConnect c kw)
                     (List.filter (on_conn c)
                        (trace (snd (serve w rs (MkState g 0 [])))))).
    { apply List.filter_In. split; [exact Hin|].
      unfold on_conn, conn_of. apply Nat.eqb_refl. }
    rewrite Hk in Hin'. apply In_firstn_In in Hin'.
    unfold probe_events in Hin'. cbn [In] in Hin'.
    repeat destruct Hin' as [Hin'|Hin']; try discriminate Hin';
      try contradiction.
    now injection Hin' as <-. }
  destruct (environ !! "DB_PORT") as [s|].
  - destruct (int_of_str s) as [z|]; [|intros []].
    intros H. exists z. split; [reflexivity|].
    destruct (serve w rs _) as [res st'] eqn:Hs.
    apply (f_equal snd) in Hs. cbn [snd] in *. subst st'.
    exact (Hin _ H).
  - intros H. eexists. split; [reflexivity|].
    destruct (serve w rs _) as [res st'] eqn:Hs.
    apply (f_equal snd) in Hs. cbn [snd] in *. subst st'.
    exact (Hin _ H).
Qed.

(** The theorem at work: a host and a port set in the environment, three
    requests, and the connect made for the last of them. *)
Lemma run_uses_import_time_parameters_witness :
  exists p,
    port_value int_of_ascii_str
      (<["DB_HOST" := "db.internal"]> {["DB_PORT" := "6543"]}) = Some p /\
    MkKwargs "db.internal" 6543 "dev_db" "dev" "devpass" 2 =
      MkKwargs
        (default "host.docker.internal"
           ((<["DB_HOST" := "db.internal"]> {["DB_PORT" := "6543"]}
             : gmap string string) !! "DB_HOST")) p
        (default "dev_db"
           ((<["DB_HOST" := "db.internal"]> {["DB_PORT" := "6543"]}
             : gmap string string) !! "DB_NAME"))
        (default "dev"
           ((<["DB_HOST" := "db.internal"]> {["DB_PORT" := "6543"]}
             : gmap string string) !! "DB_USER"))
        (default "devpass"
           ((<["DB_HOST" := "db.internal"]> {["DB_PORT" := "6543"]}
             : gmap string string) !! "DB_PASS")) 2.
Proof.
  apply (run_uses_import_time_parameters int_of_ascii_str world_flapping
           (<["DB_HOST" := "db.internal"]> {["DB_PORT" := "6543"]})
           [get "/"; get "/health"; get "/"] 1%nat
           (MkKwargs "db.internal" 6543 "dev_db" "dev" "devpass" 2)).
  vm_compute. do 5 right. left. reflexivity.
Defined.

(** ** The environment *)

(** X9.  The module reads five variables and nothing else: two
    environments that agree on [DB_HOST], [DB_PORT], [DB_NAME], [DB_USER]
    and [DB_PASS] give the same globals, or the same error; and so the
    same run. *)
Theorem load_module_reads_five (int_of_str : string -> option Z)
    (environ environ' : gmap string string) :
  (forall k, In k config_keys -> environ !! k = environ' !! k) ->
  load_module int_of_str environ = load_module int_of_str environ' /\
  forall w rs,
    run_app int_of_str w environ rs = run_app int_of_str w environ' rs.
Proof.
  intros H.
  assert (Hload : load_module int_of_str environ =
                  load_module int_of_str environ').
  { rewrite !load_module_run.
    rewrite (H "DB_HOST"), (H "DB_PORT"), (H "DB_NAME"), (H "DB_USER"),
      (H "DB_PASS") by (unfold config_keys; cbn [In]; tauto).
    reflexivity. }
  split; [exact Hload|].
  intros w rs. unfold run_app. now rewrite Hload.
Qed.

Lemma load_module_reads_five_witness :
  load_module int_of_ascii_str {["DB_PORT" := "6543"]} =
    load_module int_of_ascii_str
      (<["PATH" := "/usr/bin"]>
         (<["DB_URL" := "postgres://x"]> {["DB_PORT" := "6543"]})) /\
  forall w rs,
    run_app int_of_ascii_str w {["DB_PORT" := "6543"]} rs =
      run_app int_of_ascii_str w
        (<["PATH" := "/usr/bin"]>
           (<["DB_URL" := "postgres://x"]> {["DB_PORT" := "6543"]})) rs.
Proof.
  apply (load_module_reads_five int_of_ascii_str {["DB_PORT" := "6543"]}
           (<["PATH" := "/usr/bin"]>
              (<["DB_URL" := "postgres://x"]> {["DB_PORT" := "6543"]}))).
  intros k Hk. unfold config_keys in Hk. cbn [In] in Hk.
  destruct Hk as [<-|[<-|[<-|[<-|[<-|[]]]]]]; reflexivity.
Defined.
